(** * hostexec: wrapping host commands into chrooted commands

    A shallow embedding of [pkg/utils/hostexec/hostexec.go] and the
    properties of its three-stage rewriting pipeline
    ([resolveCmd], [wrapEnv], [wrapChroot], composed by [wrap]) and of the
    constructor [New].

    Go strings are [string], [[]string] is [list string], the command map
    [map[string]string] is a [gmap string string] (a nil map and an empty
    map answer every lookup alike).  The only effect of the package is
    [os.Stat]; it is modelled by a small monad that reads a filesystem
    oracle and records, in order, every path it was asked about. *)

From Stdlib Require Import Ascii.
From stdpp Require Import base strings list gmap.

(** ** The part of package [os] the code relies on *)

(** Error values [os.Stat] can return. Only [ENOENT] satisfies
    [os.IsNotExist]; [ENOTDIR], [EACCES] and the rest do not. *)
Inductive Errno : Type :=
  | ENOENT
  | ENOTDIR
  | EACCES
  | ELOOP
  | EIO.

(** [os.FileInfo], reduced to the one method the code calls. *)
Record FileInfo : Type := mkFileInfo { IsDir : bool }.

(** The pair [(FileInfo, error)] returned by [os.Stat]: exactly one side
    is meaningful, so it is a sum. *)
Inductive StatResult : Type :=
  | StatOk (fi : FileInfo)
  | StatErr (e : Errno).

(** The [error] component of a stat result; [None] is Go's [nil]. *)
Definition stat_err (r : StatResult) : option Errno :=
  match r with
  | StatOk _ => None
  | StatErr e => Some e
  end.

(** [os.IsNotExist(err)] *)
Definition IsNotExist (err : option Errno) : bool :=
  match err with
  | Some ENOENT => true
  | _ => false
  end.

(** A filesystem state, as far as [os.Stat] can observe it. *)
Definition Filesystem : Type := string → StatResult.

(** ** The probe monad

    A computation reads the filesystem and yields its result together
    with the list of paths it passed to [os.Stat], oldest first. *)
Definition Probe (A : Type) : Type := Filesystem → A * list string.

#[export] Instance Probe_ret : MRet Probe := λ A (x : A) (fs : Filesystem), (x, []).

#[export] Instance Probe_bind : MBind Probe :=
  λ A B (f : A → Probe B) (m : Probe A) (fs : Filesystem),
    let '(a, t1) := m fs in
    let '(b, t2) := f a fs in
    (b, t1 ++ t2).

(** [os.Stat(path)] *)
Definition os_Stat (path : string) : Probe StatResult :=
  λ fs, (fs path, [path]).

(** What a computation returns, and what it probed. *)
Definition result {A} (m : Probe A) (fs : Filesystem) : A := (m fs).1.
Definition probes {A} (m : Probe A) (fs : Filesystem) : list string := (m fs).2.

(** ** The part of package [strings] the code relies on *)

(** [strings.ContainsAny(s, chars)]: some character of [chars] occurs in
    [s]. Characters are compared as bytes, which is what Go does for a
    [chars] made of ASCII characters such as the ["/"] of [wrapEnv]. *)
Fixpoint containsChar (c : Ascii.ascii) (s : string) : bool :=
  match s with
  | EmptyString => false
  | String d s' => if Ascii.eqb c d then true else containsChar c s'
  end.

Fixpoint ContainsAny (s chars : string) : bool :=
  match s with
  | EmptyString => false
  | String c s' => if containsChar c chars then true else ContainsAny s' chars
  end.

(** [strings.HasPrefix(s, prefix)] *)
Fixpoint HasPrefix (s prefix : string) {struct prefix} : bool :=
  match prefix with
  | EmptyString => true
  | String c prefix' =>
      match s with
      | EmptyString => false
      | String d s' => if Ascii.eqb c d then HasPrefix s' prefix' else false
      end
  end.

(** The slice expression [s[n:]] for [n <= len(s)]. *)
Fixpoint sliceFrom (n : nat) (s : string) : string :=
  match n, s with
  | O, _ => s
  | S n', String _ s' => sliceFrom n' s'
  | S _, EmptyString => EmptyString
  end.

(** [strings.TrimPrefix(s, prefix)] *)
Definition TrimPrefix (s prefix : string) : string :=
  if HasPrefix s prefix then sliceFrom (String.length prefix) s else s.

(** [strings.Join(elems, sep)] *)
Fixpoint Join (elems : list string) (sep : string) : string :=
  match elems with
  | [] => ""
  | [e] => e
  | e :: rest => e +:+ sep +:+ Join rest sep
  end.

(** ** Package [hostexec] *)

(** [defaultSearchPath] for running commands without absolute paths. *)
Definition defaultSearchPath : list string :=
  [ "/usr/local/sbin";
    "/usr/local/bin";
    "/usr/sbin";
    "/usr/bin";
    "/sbin";
    "/bin" ].

(** The [hostexec] struct. Its embedded [Executor] is the process-spawning
    collaborator handed the wrapped command; the rewriting never consults
    it, so it carries no field here. *)
Record hostexec : Type := mkHostexec {
  commandMap : gmap string string;
  chrootDir : string
}.

(** The error [New] returns. *)
Inductive error : Type :=
  | errChrootDir.

Definition error_message (e : error) : string :=
  match e with
  | errChrootDir => "chroot directory does not exist or is not a directory"
  end.

(** [New(cmdMap, chrootDir)]: the Go pair [(Executor, error)], [None]
    standing for [nil] on either side. *)
Definition New (cmdMap : gmap string string) (chrootDir : string)
  : Probe (option hostexec * option error) :=
  if bool_decide (chrootDir ≠ "") then
    r ← os_Stat chrootDir;
    match r with
    | StatErr _ => mret (None, Some errChrootDir)
    | StatOk fileinfo =>
        if negb (IsDir fileinfo)
        then mret (None, Some errChrootDir)
        else mret (Some (mkHostexec cmdMap chrootDir), None)
    end
  else mret (Some (mkHostexec cmdMap chrootDir), None).

(** [h.resolveCmd(cmd, args...)] *)
Definition resolveCmd (h : hostexec) (cmd : string) (args : list string)
  : string * list string :=
  match commandMap h !! cmd with
  | None => (cmd, args)
  | Some c => if bool_decide (c = "") then (cmd, args) else (c, args)
  end.

(** The [for _, dir := range ...] loop of [wrapEnv] over the directories
    still to visit: [Some p] when the loop returns [p] from inside its
    body, [None] when it runs to its end. *)
Fixpoint searchDirs (h : hostexec) (cmd : string) (dirs : list string)
  : Probe (option string) :=
  match dirs with
  | [] => mret None
  | dir :: rest =>
      let testPath := dir +:+ "/" +:+ cmd in
      let testPath :=
        if bool_decide (chrootDir h ≠ "") then chrootDir h +:+ testPath
        else testPath in
      r ← os_Stat testPath;
      match stat_err r with
      | None =>
          if bool_decide (chrootDir h ≠ "")
          then mret (Some (TrimPrefix testPath (chrootDir h)))
          else mret (Some testPath)
      | Some _ => searchDirs h cmd rest
      end
  end.

(** The path at which [wrapEnv] looks for the env helper. *)
Definition envPath (h : hostexec) : string :=
  if bool_decide (chrootDir h ≠ "") then chrootDir h +:+ "/usr/bin/env"
  else "/usr/bin/env".

(** [h.wrapEnv(cmd, args...)] *)
Definition wrapEnv (h : hostexec) (cmd : string) (args : list string)
  : Probe (string * list string) :=
  if ContainsAny cmd "/" then mret (cmd, args)
  else
    r ← os_Stat (envPath h);
    if IsNotExist (stat_err r) then
      found ← searchDirs h cmd defaultSearchPath;
      match found with
      | Some p => mret (p, args)
      | None => mret (cmd, args)
      end
    else
      let sp := "PATH=" +:+ Join defaultSearchPath ":" in
      mret ("/usr/bin/env", ["-i"; sp; cmd] ++ args).

(** [h.wrapChroot(cmd, args...)] *)
Definition wrapChroot (h : hostexec) (cmd : string) (args : list string)
  : string * list string :=
  if bool_decide (chrootDir h = "") then (cmd, args)
  else ("/usr/sbin/chroot", [chrootDir h; cmd] ++ args).

(** [h.wrap(cmd, args...)] *)
Definition wrap (h : hostexec) (cmd : string) (args : list string)
  : Probe (string * list string) :=
  let '(cmd, args) := resolveCmd h cmd args in
  '(cmd, args) ← wrapEnv h cmd args;
  let '(cmd, args) := wrapChroot h cmd args in
  mret (cmd, args).

(** ** Concrete filesystems for examples *)

(** A filesystem given by a table of the paths that exist; every other
    path is reported as [miss]. *)
Fixpoint fs_of (table : list (string * StatResult)) (miss : Errno) : Filesystem :=
  λ path,
    match table with
    | [] => StatErr miss
    | (p, r) :: rest => if bool_decide (path = p) then r else fs_of rest miss path
    end.

Definition aFile : StatResult := StatOk (mkFileInfo false).
Definition aDir : StatResult := StatOk (mkFileInfo true).

(** ** Vocabulary of the properties *)

(** [s] contains a path separator: the character [/] is one of its
    characters. *)
Definition hasSeparator (s : string) : Prop :=
  "/"%char ∈ String.list_ascii_of_string s.

#[export] Instance hasSeparator_dec (s : string) : Decision (hasSeparator s) :=
  list_elem_of_dec "/"%char (String.list_ascii_of_string s).

(** [cmd] is not remapped by the command map [m]: it is no key of [m], or
    a key whose value is the empty string. *)
Definition notRemapped (m : gmap string string) (cmd : string) : Prop :=
  m !! cmd = None ∨ m !! cmd = Some "".

(** The location, seen from the host, of the path [p] of the target
    root: below the chroot directory when there is one. *)
Definition hostPath (h : hostexec) (p : string) : string :=
  if bool_decide (chrootDir h ≠ "") then chrootDir h +:+ p else p.

(** The path the body of the search loop stats for directory [dir]. *)
Definition testPathOf (h : hostexec) (cmd dir : string) : string :=
  hostPath h (dir +:+ "/" +:+ cmd).

(** [os.Stat] succeeds on [p] (with a nil error). *)
Definition statSucceeds (fs : Filesystem) (p : string) : Prop :=
  stat_err (fs p) = None.

(** [p] names an existing directory. *)
Definition isExistingDir (fs : Filesystem) (p : string) : bool :=
  match fs p with
  | StatOk fi => IsDir fi
  | StatErr _ => false
  end.

(** The [PATH] assignment handed to the env helper. *)
Definition pathAssignment : string :=
  "PATH=/usr/local/sbin:/usr/local/bin:/usr/sbin:/usr/bin:/sbin:/bin".

(** The search path entries ahead of [/bin]. *)
Definition dirsBeforeBin : list string :=
  [ "/usr/local/sbin"; "/usr/local/bin"; "/usr/sbin"; "/usr/bin"; "/sbin" ].

(** ** Sample configurations and filesystems *)

Definition sampleMap : gmap string string :=
  {[ "iscsiadm" := "/usr/local/sbin/iscsiadm"; "mkfs" := "mke2fs"; "blank" := "" ]}.

(** A host whose target root has the env helper. *)
Definition fsWithEnv : Filesystem :=
  fs_of [("/host", aDir); ("/host/usr/bin/env", aFile)] ENOENT.

(** A minimal target root: no env helper, [foo] installed in [/bin] only. *)
Definition fsBinOnly : Filesystem :=
  fs_of [("/host", aDir); ("/host/bin/foo", aFile)] ENOENT.

(** No env helper, [foo] installed both in [/usr/bin] and in [/bin]. *)
Definition fsTwoCopies : Filesystem :=
  fs_of [("/host", aDir); ("/host/usr/bin/foo", aFile); ("/host/bin/foo", aFile)]
        ENOENT.

(** A target root with nothing the wrapper looks for. *)
Definition fsBare : Filesystem := fs_of [("/host", aDir)] ENOENT.

(** The target root cannot be read by the caller. *)
Definition fsDenied : Filesystem := fs_of [("/host", aDir)] EACCES.

(** [fs] with a regular file put at [blocker]: the stat of any path that
    goes through it fails with [ENOTDIR]. *)
Definition withFileAt (blocker : string) (fs : Filesystem) : Filesystem :=
  λ path,
    if bool_decide (path = blocker) then aFile
    else if HasPrefix path (blocker +:+ "/") then StatErr ENOTDIR
    else fs path.

(** A target root whose [/usr] is a regular file, so that it has no env
    helper, and nothing else the wrapper looks for. *)
Definition fsUsrIsFile : Filesystem := withFileAt "/host/usr" fsBare.

(** The same, with [foo] installed in [/bin]. *)
Definition fsUsrIsFileBinFoo : Filesystem := withFileAt "/host/usr" fsBinOnly.

(** ** The execution entry points *)

(** The [Executor] interface: whatever builds a command object [Cmd]
    from a program and its arguments, with or without a context [Ctx].
    The [hostexec] struct embeds one; here it is passed next to the
    struct. *)
Record Executor (Ctx Cmd : Type) : Type := mkExecutor {
  exec_Command : string → list string → Cmd;
  exec_CommandContext : Ctx → string → list string → Cmd
}.
Arguments exec_Command {Ctx Cmd} _ _ _.
Arguments exec_CommandContext {Ctx Cmd} _ _ _ _.

(** [h.Command(cmd, args...)] *)
Definition Command {Ctx Cmd} (E : Executor Ctx Cmd) (h : hostexec)
    (cmd : string) (args : list string) : Probe Cmd :=
  '(cmd, args) ← wrap h cmd args;
  mret (exec_Command E cmd args).

(** [h.CommandContext(ctx, cmd, args...)] *)
Definition CommandContext {Ctx Cmd} (E : Executor Ctx Cmd) (h : hostexec)
    (ctx : Ctx) (cmd : string) (args : list string) : Probe Cmd :=
  '(cmd, args) ← wrap h cmd args;
  mret (exec_CommandContext E ctx cmd args).

(** An executor that only writes down what it is handed. *)
Definition recorder : Executor string (option string * string * list string) :=
  {| exec_Command := λ c a, (None, c, a);
     exec_CommandContext := λ ctx c a, (Some ctx, c, a) |}.

(** A host without chroot: no env helper, [mount] installed in [/sbin]
    and in [/bin]. *)
Definition fsHostNoEnv : Filesystem :=
  fs_of [("/sbin/mount", aFile); ("/bin/mount", aFile)] ENOENT.


(** ** Strings *)

Lemma app_String (c : Ascii.ascii) (s t : string) :
  String c s +:+ t = String c (s +:+ t).
Proof. reflexivity. Qed.

Lemma app_Empty (t : string) : "" +:+ t = t.
Proof. reflexivity. Qed.

Lemma containsChar_slash (c : Ascii.ascii) :
  containsChar c "/" = true ↔ c = "/"%char.
Proof.
  simpl. destruct (Ascii.eqb_spec c "/"%char) as [->|Hne]; split; done.
Qed.

Lemma ContainsAny_hasSeparator (s : string) :
  ContainsAny s "/" = true ↔ hasSeparator s.
Proof.
  unfold hasSeparator. induction s as [|c s IH]; cbn [ContainsAny String.list_ascii_of_string].
  - split; [done|]. by intros ?%not_elem_of_nil.
  - rewrite elem_of_cons, <- IH.
    destruct (containsChar c "/") eqn:Hc.
    + apply containsChar_slash in Hc as ->. split; [by left | done].
    + split; [by right|]. intros [Hslash|?]; [|done].
      symmetry in Hslash. apply containsChar_slash in Hslash. congruence.
Qed.

(** A string with a separator, seen as a concatenation. *)
Lemma hasSeparator_app (pre post : string) : hasSeparator (pre +:+ "/" +:+ post).
Proof.
  unfold hasSeparator. induction pre as [|c pre IH].
  - rewrite app_Empty, app_String. left.
  - rewrite app_String. by right.
Qed.

Lemma ContainsAny_no_separator (s : string) :
  ¬ hasSeparator s → ContainsAny s "/" = false.
Proof.
  intros Hs. destruct (ContainsAny s "/") eqn:E; [|done].
  by apply ContainsAny_hasSeparator in E.
Qed.

Lemma HasPrefix_app (p s : string) : HasPrefix (p +:+ s) p = true.
Proof.
  induction p as [|c p IH]; [done|].
  rewrite app_String. simpl. rewrite Ascii.eqb_refl. exact IH.
Qed.

Lemma sliceFrom_app (p s : string) : sliceFrom (String.length p) (p +:+ s) = s.
Proof. induction p as [|c p IH]; [done|]. rewrite app_String. exact IH. Qed.

Lemma TrimPrefix_app (p s : string) : TrimPrefix (p +:+ s) p = s.
Proof. unfold TrimPrefix. by rewrite HasPrefix_app, sliceFrom_app. Qed.

Lemma Join_defaultSearchPath :
  "PATH=" +:+ Join defaultSearchPath ":" = pathAssignment.
Proof. reflexivity. Qed.

(** ** The probe monad: unfolding equations *)

Lemma mret_run {A} (x : A) (fs : Filesystem) : (mret x : Probe A) fs = (x, []).
Proof. reflexivity. Qed.

Lemma mbind_run {A B} (m : Probe A) (f : A → Probe B) (fs : Filesystem) :
  (m ≫= f) fs = ((f (m fs).1 fs).1, (m fs).2 ++ (f (m fs).1 fs).2).
Proof.
  unfold mbind, Probe_bind.
  destruct (m fs) as [a t1]. simpl. by destruct (f a fs) as [b t2].
Qed.

Lemma os_Stat_run (p : string) (fs : Filesystem) : os_Stat p fs = (fs p, [p]).
Proof. reflexivity. Qed.

Lemma stat_bind_run {B} (p : string) (f : StatResult → Probe B) (fs : Filesystem) :
  (os_Stat p ≫= f) fs = ((f (fs p) fs).1, p :: (f (fs p) fs).2).
Proof. by rewrite mbind_run. Qed.

(** ** The search loop *)

Section search.
Context (h : hostexec) (cmd : string) (fs : Filesystem).

Lemma searchDirs_nil : searchDirs h cmd [] fs = (None, []).
Proof. reflexivity. Qed.

(** An iteration that finds its file returns the path inside the
    target root, whether or not a chroot directory is configured. *)
Lemma searchDirs_hit (dir : string) (rest : list string) :
  statSucceeds fs (testPathOf h cmd dir) →
  searchDirs h cmd (dir :: rest) fs
  = (Some (dir +:+ "/" +:+ cmd), [testPathOf h cmd dir]).
Proof.
  unfold statSucceeds, testPathOf, hostPath. intros Hok.
  cbn [searchDirs]. rewrite stat_bind_run.
  case_bool_decide as Hc; rewrite Hok, mret_run; simpl.
  - by rewrite TrimPrefix_app.
  - done.
Qed.

(** An iteration that does not find its file moves on to the next
    directory. *)
Lemma searchDirs_miss (dir : string) (rest : list string) :
  ¬ statSucceeds fs (testPathOf h cmd dir) →
  searchDirs h cmd (dir :: rest) fs
  = ((searchDirs h cmd rest fs).1,
     testPathOf h cmd dir :: (searchDirs h cmd rest fs).2).
Proof.
  unfold statSucceeds, testPathOf, hostPath. intros Hko.
  cbn [searchDirs]. rewrite stat_bind_run.
  case_bool_decide as Hc;
    (destruct (stat_err (fs _)) eqn:E; [reflexivity | by destruct Hko]).
Qed.

(** The first directory that holds the file wins. *)
Lemma searchDirs_first (earlier : list string) (dir : string) (later : list string) :
  Forall (λ d, ¬ statSucceeds fs (testPathOf h cmd d)) earlier →
  statSucceeds fs (testPathOf h cmd dir) →
  (searchDirs h cmd (earlier ++ dir :: later) fs).1 = Some (dir +:+ "/" +:+ cmd).
Proof.
  intros Hearlier Hdir.
  induction Hearlier as [|d earlier Hd _ IH].
  - by rewrite app_nil_l, searchDirs_hit.
  - by rewrite <- app_comm_cons, searchDirs_miss.
Qed.

(** No directory holds the file: the loop runs to its end. *)
Lemma searchDirs_none (dirs : list string) :
  Forall (λ d, ¬ statSucceeds fs (testPathOf h cmd d)) dirs →
  (searchDirs h cmd dirs fs).1 = None.
Proof.
  induction 1 as [|d dirs Hd _ IH]; [done|].
  by rewrite searchDirs_miss.
Qed.

(** Whatever the loop returns is one of its directories followed by
    the command name. *)
Lemma searchDirs_some (dirs : list string) (p : string) :
  (searchDirs h cmd dirs fs).1 = Some p →
  ∃ dir, dir ∈ dirs ∧ p = dir +:+ "/" +:+ cmd ∧ statSucceeds fs (testPathOf h cmd dir).
Proof.
  induction dirs as [|d dirs IH]; [done|].
  destruct (decide (statSucceeds fs (testPathOf h cmd d))) as [Hd|Hd].
  - rewrite searchDirs_hit by done. intros [= <-].
    exists d. split_and!; [left | done | done].
  - rewrite searchDirs_miss by done. intros (dir & ? & ? & ?)%IH.
    exists dir. split_and!; [by right | done | done].
Qed.
End search.

(** The first directory of a non-empty search is always asked about. *)
Lemma searchDirs_probes_cons (h : hostexec) (cmd dir : string)
    (rest : list string) (fs : Filesystem) :
  ∃ t, (searchDirs h cmd (dir :: rest) fs).2 = testPathOf h cmd dir :: t.
Proof.
  destruct (decide (statSucceeds fs (testPathOf h cmd dir))) as [Hd|Hd].
  - rewrite searchDirs_hit by done. by exists [].
  - rewrite searchDirs_miss by done. by eexists.
Qed.

(** ** The three branches of [wrapEnv] *)

Section wrapEnv_branches.
Context (h : hostexec) (cmd : string) (args : list string) (fs : Filesystem).

Lemma envPath_hostPath : envPath h = hostPath h "/usr/bin/env".
Proof. reflexivity. Qed.

(** An explicit path is returned at once. *)
Lemma wrapEnv_explicit :
  ContainsAny cmd "/" = true →
  wrapEnv h cmd args fs = ((cmd, args), []).
Proof. intros Hc. unfold wrapEnv. by rewrite Hc. Qed.

(** The helper check did not end in a not-exist error. *)
Lemma wrapEnv_helper :
  ContainsAny cmd "/" = false →
  IsNotExist (stat_err (fs (envPath h))) = false →
  wrapEnv h cmd args fs
  = (("/usr/bin/env", ["-i"; pathAssignment; cmd] ++ args), [envPath h]).
Proof.
  intros Hc Hne. unfold wrapEnv.
  by rewrite Hc, stat_bind_run, Hne, Join_defaultSearchPath.
Qed.

(** The helper check ended in a not-exist error. *)
Lemma wrapEnv_fallback :
  ContainsAny cmd "/" = false →
  IsNotExist (stat_err (fs (envPath h))) = true →
  wrapEnv h cmd args fs
  = ((default cmd (searchDirs h cmd defaultSearchPath fs).1, args),
     envPath h :: (searchDirs h cmd defaultSearchPath fs).2).
Proof.
  intros Hc Hne. unfold wrapEnv.
  rewrite Hc, stat_bind_run, Hne, mbind_run.
  destruct (searchDirs h cmd defaultSearchPath fs) as [[p|] t];
    simpl; by rewrite app_nil_r.
Qed.

(** In every branch the arguments handed in end the arguments handed
    back. *)
Lemma wrapEnv_args_suffix : args `suffix_of` (wrapEnv h cmd args fs).1.2.
Proof.
  destruct (ContainsAny cmd "/") eqn:Hc.
  - by rewrite wrapEnv_explicit.
  - destruct (IsNotExist (stat_err (fs (envPath h)))) eqn:Hne.
    + by rewrite wrapEnv_fallback.
    + rewrite wrapEnv_helper by done. by apply suffix_app_r.
Qed.
End wrapEnv_branches.

(** ** The stages around [wrapEnv] *)

Lemma resolveCmd_args (h : hostexec) (cmd : string) (args : list string) :
  (resolveCmd h cmd args).2 = args.
Proof.
  unfold resolveCmd. destruct (commandMap h !! cmd) as [c|]; [|done].
  by case_bool_decide.
Qed.

Lemma resolveCmd_unmapped (h : hostexec) (cmd : string) (args : list string) :
  notRemapped (commandMap h) cmd → resolveCmd h cmd args = (cmd, args).
Proof. intros [Hm|Hm]; unfold resolveCmd; by rewrite Hm. Qed.

Lemma resolveCmd_mapped (h : hostexec) (cmd c : string) (args : list string) :
  commandMap h !! cmd = Some c → c ≠ "" → resolveCmd h cmd args = (c, args).
Proof.
  intros Hm Hc. unfold resolveCmd. rewrite Hm. by rewrite bool_decide_false.
Qed.

Lemma wrapChroot_enabled (h : hostexec) (cmd : string) (args : list string) :
  chrootDir h ≠ "" →
  wrapChroot h cmd args = ("/usr/sbin/chroot", [chrootDir h; cmd] ++ args).
Proof. intros Hr. unfold wrapChroot. by rewrite bool_decide_false. Qed.

Lemma wrapChroot_args_suffix (h : hostexec) (cmd : string) (args : list string) :
  args `suffix_of` (wrapChroot h cmd args).2.
Proof.
  unfold wrapChroot. case_bool_decide; [done|]. by apply suffix_app_r.
Qed.

(** [wrap] is its three stages in sequence; only the middle one stats. *)
Lemma wrap_run (h : hostexec) (cmd : string) (args : list string) (fs : Filesystem) :
  wrap h cmd args fs
  = (wrapChroot h (wrapEnv h (resolveCmd h cmd args).1 (resolveCmd h cmd args).2 fs).1.1
                  (wrapEnv h (resolveCmd h cmd args).1 (resolveCmd h cmd args).2 fs).1.2,
     (wrapEnv h (resolveCmd h cmd args).1 (resolveCmd h cmd args).2 fs).2).
Proof.
  unfold wrap. destruct (resolveCmd h cmd args) as [c a]. simpl.
  rewrite mbind_run. destruct (wrapEnv h c a fs) as [[c' a'] t]. simpl.
  destruct (wrapChroot h c' a') as [c'' a'']. simpl. by rewrite app_nil_r.
Qed.

(** ** Stage 1: [resolveCmd] *)

(** C5. A name that is a key of the command map with a non-empty value
    [v] is replaced by [v]; a name that is no key, or a key mapped to the
    empty string, is returned as it is. The arguments are returned
    unchanged either way. *)
Theorem resolveCmd_spec (h : hostexec) (cmd : string) (args : list string) :
  (∀ v, commandMap h !! cmd = Some v → v ≠ "" →
        resolveCmd h cmd args = (v, args))
  ∧ (commandMap h !! cmd = None ∨ commandMap h !! cmd = Some "" →
     resolveCmd h cmd args = (cmd, args)).
Proof.
  split.
  - intros v Hv Hne. by apply resolveCmd_mapped.
  - intros [Hnone|Hblank]; unfold resolveCmd.
    + by rewrite Hnone.
    + by rewrite Hblank.
Qed.

Lemma resolveCmd_spec_witness :
  resolveCmd (mkHostexec sampleMap "/host") "iscsiadm" ["-m"; "node"]
    = ("/usr/local/sbin/iscsiadm", ["-m"; "node"])
  ∧ resolveCmd (mkHostexec sampleMap "/host") "mount" ["-a"] = ("mount", ["-a"])
  ∧ resolveCmd (mkHostexec sampleMap "/host") "blank" [] = ("blank", []).
Proof.
  split_and!.
  - apply (proj1 (resolveCmd_spec (mkHostexec sampleMap "/host") "iscsiadm" ["-m"; "node"]));
      [reflexivity | discriminate].
  - apply (proj2 (resolveCmd_spec (mkHostexec sampleMap "/host") "mount" ["-a"])).
    left. reflexivity.
  - apply (proj2 (resolveCmd_spec (mkHostexec sampleMap "/host") "blank" [])).
    right. reflexivity.
Defined.

(** ** Stage 2: [wrapEnv] *)

(** C6. On a name that contains a path separator [wrapEnv] is the
    identity, whatever the chroot directory and the filesystem are, and it
    stats nothing. *)
Theorem wrapEnv_separator_identity (h : hostexec) (cmd : string)
    (args : list string) (fs : Filesystem) :
  hasSeparator cmd →
  wrapEnv h cmd args fs = ((cmd, args), []).
Proof.
  intros Hsep. apply wrapEnv_explicit. by apply ContainsAny_hasSeparator.
Qed.

Lemma wrapEnv_separator_identity_witness :
  hasSeparator "/opt/bin/iscsiadm"
  ∧ wrapEnv (mkHostexec ∅ "/host") "/opt/bin/iscsiadm" ["-m"] fsBare
    = (("/opt/bin/iscsiadm", ["-m"]), []).
Proof.
  split; [compute_done|].
  apply (wrapEnv_separator_identity (mkHostexec ∅ "/host") "/opt/bin/iscsiadm"
           ["-m"] fsBare).
  compute_done.
Defined.

(** C10. For a name without separator, [wrapEnv] stats anything beyond
    the env helper's path exactly when that first check fails with a
    not-exist error; when the check fails with any other error the
    invocation is rewritten through [/usr/bin/env], as when the helper is
    found. *)
Theorem wrapEnv_fallback_only_if_not_exist (h : hostexec) (cmd : string)
    (args : list string) (fs : Filesystem) :
  ¬ hasSeparator cmd →
  (probes (wrapEnv h cmd args) fs ≠ [envPath h] ↔ fs (envPath h) = StatErr ENOENT)
  ∧ (∀ e, fs (envPath h) = StatErr e → e ≠ ENOENT →
       wrapEnv h cmd args fs
       = (("/usr/bin/env", ["-i"; pathAssignment; cmd] ++ args), [envPath h])).
Proof.
  intros Hsep%ContainsAny_no_separator. unfold probes. split.
  - destruct (IsNotExist (stat_err (fs (envPath h)))) eqn:Hne.
    + rewrite wrapEnv_fallback by done. cbn [snd].
      destruct (searchDirs_probes_cons h cmd "/usr/local/sbin"
                  (tail defaultSearchPath) fs) as [t Ht].
      change ("/usr/local/sbin" :: tail defaultSearchPath) with defaultSearchPath in Ht.
      rewrite Ht. split; [intros _ | done].
      destruct (fs (envPath h)) as [fi|[]]; by try discriminate Hne.
    + rewrite wrapEnv_helper by done. cbn [snd].
      split; [done|]. intros Hfs. by rewrite Hfs in Hne.
  - intros e He Hne. apply wrapEnv_helper; [done|].
    rewrite He. by destruct e.
Qed.

Lemma wrapEnv_fallback_only_if_not_exist_witness :
  ¬ hasSeparator "foo"
  ∧ fsDenied "/host/usr/bin/env" = StatErr EACCES
  ∧ wrapEnv (mkHostexec ∅ "/host") "foo" ["-x"] fsDenied
    = (("/usr/bin/env", ["-i"; pathAssignment; "foo"; "-x"]), ["/host/usr/bin/env"])
  ∧ probes (wrapEnv (mkHostexec ∅ "/host") "foo" ["-x"]) fsBare ≠ ["/host/usr/bin/env"].
Proof.
  assert (¬ hasSeparator "foo") as Hfoo by compute_done.
  split_and!; [exact Hfoo | reflexivity | |].
  - apply (proj2 (wrapEnv_fallback_only_if_not_exist (mkHostexec ∅ "/host") "foo"
                    ["-x"] fsDenied Hfoo) EACCES); [reflexivity | discriminate].
  - apply (proj1 (wrapEnv_fallback_only_if_not_exist (mkHostexec ∅ "/host") "foo"
                    ["-x"] fsBare Hfoo)).
    reflexivity.
Defined.

(** ** The pipeline: [wrap] *)

Section chrooted.
Context (nameMap : gmap string string) (R : string).

(** With a chroot directory, the env helper is looked for below it. *)
Lemma envPath_chrooted : R ≠ "" → envPath (mkHostexec nameMap R) = R +:+ "/usr/bin/env".
Proof. intros HR. unfold envPath. simpl. by rewrite bool_decide_true. Qed.

Lemma testPathOf_chrooted (cmd dir : string) :
  R ≠ "" → testPathOf (mkHostexec nameMap R) cmd dir = R +:+ dir +:+ "/" +:+ cmd.
Proof. intros HR. unfold testPathOf, hostPath. simpl. by rewrite bool_decide_true. Qed.

Lemma Forall_testPathOf_chrooted (fs : Filesystem) (cmd : string) (dirs : list string) :
  R ≠ "" →
  Forall (λ dir, ¬ statSucceeds fs (R +:+ dir +:+ "/" +:+ cmd)) dirs →
  Forall (λ d, ¬ statSucceeds fs (testPathOf (mkHostexec nameMap R) cmd d)) dirs.
Proof.
  intros HR Hdirs. eapply Forall_impl; [exact Hdirs|].
  intros dir Hd. by rewrite testPathOf_chrooted.
Qed.
End chrooted.

(** C1. With chroot directory [R], a name that is not remapped and has no
    separator, and the env helper present at [R/usr/bin/env], [wrap]
    returns the program [/usr/sbin/chroot] and the arguments [R],
    [/usr/bin/env], [-i], the [PATH] assignment of the search path, the
    name, and then the caller's arguments. *)
Theorem wrap_env_helper_present (nameMap : gmap string string) (R cmd : string)
    (args : list string) (fs : Filesystem) (fi : FileInfo) :
  R ≠ "" →
  notRemapped nameMap cmd →
  ¬ hasSeparator cmd →
  fs (R +:+ "/usr/bin/env") = StatOk fi →
  result (wrap (mkHostexec nameMap R) cmd args) fs
  = ("/usr/sbin/chroot",
     [R; "/usr/bin/env"; "-i";
      "PATH=/usr/local/sbin:/usr/local/bin:/usr/sbin:/usr/bin:/sbin:/bin"; cmd] ++ args).
Proof.
  intros HR Hmap Hsep%ContainsAny_no_separator Henv.
  unfold result. rewrite wrap_run, resolveCmd_unmapped by done. cbn [fst snd].
  rewrite wrapEnv_helper; [| done | by rewrite envPath_chrooted, Henv].
  cbn [fst snd]. by rewrite wrapChroot_enabled.
Qed.

Lemma wrap_env_helper_present_witness :
  fsWithEnv "/host/usr/bin/env" = aFile
  ∧ result (wrap (mkHostexec sampleMap "/host") "foo" ["-x"]) fsWithEnv
    = ("/usr/sbin/chroot",
       ["/host"; "/usr/bin/env"; "-i";
        "PATH=/usr/local/sbin:/usr/local/bin:/usr/sbin:/usr/bin:/sbin:/bin";
        "foo"; "-x"]).
Proof.
  split; [reflexivity|].
  apply (wrap_env_helper_present sampleMap "/host" "foo" ["-x"] fsWithEnv
           (mkFileInfo false));
    [discriminate | by left | compute_done | reflexivity].
Defined.

(** The claim C3 as it is worded fails. In a target root whose [/usr] is
    a regular file the env helper is absent (its stat fails, with
    [ENOTDIR]) and no search-path directory holds [foo], yet [wrap] does
    not fall back to the bare name: only a not-exist error sends
    [wrapEnv] to the search, so the invocation is rewritten through
    [/usr/bin/env]. *)
Lemma wrap_not_found_helper_not_a_directory :
  notRemapped sampleMap "foo"
  ∧ ¬ hasSeparator "foo"
  ∧ fsUsrIsFile "/host/usr" = aFile
  ∧ fsUsrIsFile "/host/usr/bin/env" = StatErr ENOTDIR
  ∧ Forall (λ dir, ¬ statSucceeds fsUsrIsFile ("/host" +:+ dir +:+ "/" +:+ "foo"))
           defaultSearchPath
  ∧ (result (wrap (mkHostexec sampleMap "/host") "foo" []) fsUsrIsFile).2
    = ["/host"; "/usr/bin/env"; "-i";
       "PATH=/usr/local/sbin:/usr/local/bin:/usr/sbin:/usr/bin:/sbin:/bin"; "foo"]
  ∧ (result (wrap (mkHostexec sampleMap "/host") "foo" []) fsUsrIsFile).2
    ≠ ["/host"; "foo"].
Proof.
  split_and!; [by left | compute_done | reflexivity | reflexivity | 
               | reflexivity | vm_compute; discriminate].
  repeat constructor; compute_done.
Qed.

(** C3, amended. With chroot directory [R], a name that is not remapped
    and has no separator, the stat of [R/usr/bin/env] failing with a
    not-exist error and the stat of [R/dir/<name>] failing for every
    search-path directory [dir], [wrap] returns the name unqualified
    behind [/usr/sbin/chroot R]: the arguments are [R], the name, and the
    caller's arguments. *)
Theorem wrap_command_not_found (nameMap : gmap string string) (R cmd : string)
    (args : list string) (fs : Filesystem) :
  R ≠ "" →
  notRemapped nameMap cmd →
  ¬ hasSeparator cmd →
  fs (R +:+ "/usr/bin/env") = StatErr ENOENT →
  Forall (λ dir, ¬ statSucceeds fs (R +:+ dir +:+ "/" +:+ cmd)) defaultSearchPath →
  result (wrap (mkHostexec nameMap R) cmd args) fs
  = ("/usr/sbin/chroot", [R; cmd] ++ args).
Proof.
  intros HR Hmap Hsep%ContainsAny_no_separator Henv Hdirs.
  unfold result. rewrite wrap_run, resolveCmd_unmapped by done. cbn [fst snd].
  rewrite wrapEnv_fallback; [| done | by rewrite envPath_chrooted, Henv].
  rewrite searchDirs_none by by apply Forall_testPathOf_chrooted.
  cbn [fst snd default]. by rewrite wrapChroot_enabled.
Qed.

Lemma wrap_command_not_found_witness :
  fsBare "/host/usr/bin/env" = StatErr ENOENT
  ∧ result (wrap (mkHostexec sampleMap "/host") "foo" []) fsBare
    = ("/usr/sbin/chroot", ["/host"; "foo"]).
Proof.
  split; [reflexivity|].
  apply (wrap_command_not_found sampleMap "/host" "foo" [] fsBare);
    [discriminate | by left | compute_done | reflexivity |].
  repeat constructor; compute_done.
Defined.

(** C4. A name whose command-map value contains a path separator is
    resolved to that value, which then passes [wrapEnv] as an explicit
    path: [wrap] returns what [wrapChroot] makes of the value and the
    caller's arguments, and nothing is stat-ed. *)
Theorem wrap_mapped_to_path (h : hostexec) (cmd v : string)
    (args : list string) (fs : Filesystem) :
  commandMap h !! cmd = Some v →
  hasSeparator v →
  wrap h cmd args fs = (wrapChroot h v args, []).
Proof.
  intros Hmap Hsep.
  assert (v ≠ "") as Hne by (intros ->; by apply not_elem_of_nil in Hsep).
  rewrite wrap_run, (resolveCmd_mapped h cmd v) by done. cbn [fst snd].
  rewrite wrapEnv_explicit by by apply ContainsAny_hasSeparator.
  done.
Qed.

Lemma wrap_mapped_to_path_witness :
  sampleMap !! "iscsiadm" = Some "/usr/local/sbin/iscsiadm"
  ∧ wrap (mkHostexec sampleMap "/host") "iscsiadm" ["-m"; "node"] fsBare
    = (("/usr/sbin/chroot", ["/host"; "/usr/local/sbin/iscsiadm"; "-m"; "node"]), []).
Proof.
  split; [reflexivity|].
  apply (wrap_mapped_to_path (mkHostexec sampleMap "/host") "iscsiadm"
           "/usr/local/sbin/iscsiadm" ["-m"; "node"] fsBare);
    [reflexivity | compute_done].
Defined.

(** C9. Under every configuration and filesystem, the arguments [wrap]
    returns end with the caller's arguments, in order and unmodified;
    and so stage by stage: [resolveCmd] returns its arguments unchanged,
    [wrapEnv] and [wrapChroot] return theirs with, at most, new elements
    in front. *)
Theorem wrap_args_suffix (h : hostexec) (cmd : string) (args : list string)
    (fs : Filesystem) :
  args `suffix_of` (result (wrap h cmd args) fs).2
  ∧ (resolveCmd h cmd args).2 = args
  ∧ args `suffix_of` (result (wrapEnv h cmd args) fs).2
  ∧ args `suffix_of` (wrapChroot h cmd args).2.
Proof.
  split_and!.
  - unfold result. rewrite wrap_run. cbn [fst].
    etrans; [|apply wrapChroot_args_suffix].
    etrans; [|apply wrapEnv_args_suffix].
    by rewrite resolveCmd_args.
  - apply resolveCmd_args.
  - apply wrapEnv_args_suffix.
  - apply wrapChroot_args_suffix.
Qed.

(** The search path is the directories ahead of [/bin], then [/bin]. *)
Lemma defaultSearchPath_split : defaultSearchPath = dirsBeforeBin ++ ["/bin"].
Proof. reflexivity. Qed.

(** The claim C2 as it is worded fails, in two ways. With the env helper
    not existing and [foo] present both at [/host/usr/bin/foo] and at
    [/host/bin/foo], the search stops at [/usr/bin], which comes first,
    and [wrap] returns the arguments [/host], [/usr/bin/foo] rather than
    [/host], [/bin/foo]. And in a target root whose [/usr] is a regular
    file, the env helper is absent (its stat fails, with [ENOTDIR]) and
    [foo] is present at [/host/bin/foo] only, yet no search takes place:
    the invocation is rewritten through [/usr/bin/env]. *)
Lemma wrap_bin_shadowed_by_usr_bin :
  (notRemapped sampleMap "foo"
   ∧ ¬ hasSeparator "foo"
   ∧ fsTwoCopies "/host/usr/bin/env" = StatErr ENOENT
   ∧ fsTwoCopies "/host/bin/foo" = aFile
   ∧ (result (wrap (mkHostexec sampleMap "/host") "foo" []) fsTwoCopies).2
     = ["/host"; "/usr/bin/foo"]
   ∧ (result (wrap (mkHostexec sampleMap "/host") "foo" []) fsTwoCopies).2
     ≠ ["/host"; "/bin/foo"])
  ∧ (fsUsrIsFileBinFoo "/host/usr" = aFile
     ∧ fsUsrIsFileBinFoo "/host/usr/bin/env" = StatErr ENOTDIR
     ∧ Forall (λ dir, ¬ statSucceeds fsUsrIsFileBinFoo ("/host" +:+ dir +:+ "/" +:+ "foo"))
              dirsBeforeBin
     ∧ fsUsrIsFileBinFoo "/host/bin/foo" = aFile
     ∧ (result (wrap (mkHostexec sampleMap "/host") "foo" []) fsUsrIsFileBinFoo).2
       = ["/host"; "/usr/bin/env"; "-i";
          "PATH=/usr/local/sbin:/usr/local/bin:/usr/sbin:/usr/bin:/sbin:/bin"; "foo"]
     ∧ (result (wrap (mkHostexec sampleMap "/host") "foo" []) fsUsrIsFileBinFoo).2
       ≠ ["/host"; "/bin/foo"]).
Proof.
  split.
  - split_and!; [by left | compute_done | reflexivity | reflexivity
                | reflexivity | vm_compute; discriminate].
  - split_and!; [reflexivity | reflexivity | | reflexivity | reflexivity
                | vm_compute; discriminate].
    repeat constructor; compute_done.
Qed.

(** C2, amended. With chroot directory [R], a name that is not remapped
    and has no separator, the stat of [R/usr/bin/env] failing with a
    not-exist error, the stat of [R/dir/<name>] failing for every
    search-path directory [dir] ahead of [/bin], and the stat of
    [R/bin/<name>] succeeding, [wrap] returns the program
    [/usr/sbin/chroot] and the arguments [R], [/bin/<name>] and the
    caller's arguments: the path found has lost the prefix [R], which the
    chroot wrapping supplies as the first argument. *)
Theorem wrap_found_in_bin (nameMap : gmap string string) (R cmd : string)
    (args : list string) (fs : Filesystem) (fi : FileInfo) :
  R ≠ "" →
  notRemapped nameMap cmd →
  ¬ hasSeparator cmd →
  fs (R +:+ "/usr/bin/env") = StatErr ENOENT →
  Forall (λ dir, ¬ statSucceeds fs (R +:+ dir +:+ "/" +:+ cmd)) dirsBeforeBin →
  fs (R +:+ "/bin/" +:+ cmd) = StatOk fi →
  result (wrap (mkHostexec nameMap R) cmd args) fs
  = ("/usr/sbin/chroot", [R; "/bin/" +:+ cmd] ++ args).
Proof.
  intros HR Hmap Hsep%ContainsAny_no_separator Henv Hearlier Hbin.
  unfold result. rewrite wrap_run, resolveCmd_unmapped by done. cbn [fst snd].
  rewrite wrapEnv_fallback; [| done | by rewrite envPath_chrooted, Henv].
  rewrite defaultSearchPath_split, (searchDirs_first _ _ _ dirsBeforeBin "/bin" []).
  - cbn [fst snd default]. by rewrite wrapChroot_enabled.
  - by apply Forall_testPathOf_chrooted.
  - rewrite testPathOf_chrooted by done. unfold statSucceeds.
    change (R +:+ "/bin" +:+ "/" +:+ cmd) with (R +:+ "/bin/" +:+ cmd).
    by rewrite Hbin.
Qed.

Lemma wrap_found_in_bin_witness :
  fsBinOnly "/host/usr/bin/env" = StatErr ENOENT
  ∧ fsBinOnly "/host/bin/foo" = aFile
  ∧ result (wrap (mkHostexec sampleMap "/host") "foo" []) fsBinOnly
    = ("/usr/sbin/chroot", ["/host"; "/bin/foo"]).
Proof.
  split_and!; [reflexivity | reflexivity |].
  apply (wrap_found_in_bin sampleMap "/host" "foo" [] fsBinOnly (mkFileInfo false));
    [discriminate | by left | compute_done | reflexivity | | reflexivity].
  repeat constructor; compute_done.
Defined.

(** ** Construction: [New] *)

(** A chroot directory that exists is accepted. *)
Lemma New_existing_dir (cmdMap : gmap string string) (chrootDir : string)
    (fs : Filesystem) :
  isExistingDir fs chrootDir = true →
  result (New cmdMap chrootDir) fs = (Some (mkHostexec cmdMap chrootDir), None).
Proof.
  unfold isExistingDir, result, New. intros Hdir.
  case_bool_decide; [|done]. rewrite stat_bind_run.
  destruct (fs chrootDir) as [fi|e]; [|done]. by rewrite Hdir.
Qed.

(** C7. [New] returns an error and a nil executor whenever the chroot
    directory is non-empty and does not name an existing directory; with
    the empty chroot directory it returns an executor and no error,
    whatever the command map and the filesystem are, without a stat. *)
Theorem New_chroot_check (cmdMap : gmap string string) (chrootDir : string)
    (fs : Filesystem) :
  (chrootDir ≠ "" → isExistingDir fs chrootDir = false →
   result (New cmdMap chrootDir) fs = (None, Some errChrootDir))
  ∧ New cmdMap "" fs = ((Some (mkHostexec cmdMap ""), None), []).
Proof.
  split; [|done].
  unfold isExistingDir, result, New. intros Hne Hdir.
  rewrite bool_decide_true by done. rewrite stat_bind_run.
  destruct (fs chrootDir) as [fi|e]; [|done]. by rewrite Hdir.
Qed.

Lemma New_chroot_check_witness :
  result (New sampleMap "/missing") fsWithEnv = (None, Some errChrootDir)
  ∧ result (New sampleMap "/host/usr/bin/env") fsWithEnv = (None, Some errChrootDir)
  ∧ New sampleMap "" fsDenied = ((Some (mkHostexec sampleMap ""), None), []).
Proof.
  split_and!.
  - apply (proj1 (New_chroot_check sampleMap "/missing" fsWithEnv));
      [discriminate | reflexivity].
  - apply (proj1 (New_chroot_check sampleMap "/host/usr/bin/env" fsWithEnv));
      [discriminate | reflexivity].
  - apply (proj2 (New_chroot_check sampleMap "" fsDenied)).
Defined.

(** ** More on the search loop *)

Section search_log.
Context (h : hostexec) (cmd : string) (fs : Filesystem).

(** The loop stats its directories in order and stops at the first one
    that holds the file. *)
Lemma searchDirs_first_log (earlier : list string) (dir : string) (later : list string) :
  Forall (λ d, ¬ statSucceeds fs (testPathOf h cmd d)) earlier →
  statSucceeds fs (testPathOf h cmd dir) →
  searchDirs h cmd (earlier ++ dir :: later) fs
  = (Some (dir +:+ "/" +:+ cmd), testPathOf h cmd <$> (earlier ++ [dir])).
Proof.
  intros Hearlier Hdir.
  induction Hearlier as [|d earlier Hd _ IH].
  - by rewrite !app_nil_l, searchDirs_hit.
  - rewrite <- !app_comm_cons, searchDirs_miss by done. by rewrite IH.
Qed.

(** When no directory holds the file, every one of them is asked about. *)
Lemma searchDirs_none_log (dirs : list string) :
  Forall (λ d, ¬ statSucceeds fs (testPathOf h cmd d)) dirs →
  searchDirs h cmd dirs fs = (None, testPathOf h cmd <$> dirs).
Proof.
  induction 1 as [|d dirs Hd _ IH]; [done|].
  rewrite searchDirs_miss by done. by rewrite IH.
Qed.

(** The loop stats nothing but candidate paths, and no more of them than
    there are directories. *)
Lemma searchDirs_probes_bound (dirs : list string) :
  (∀ p, p ∈ (searchDirs h cmd dirs fs).2 → ∃ dir, dir ∈ dirs ∧ p = testPathOf h cmd dir)
  ∧ length (searchDirs h cmd dirs fs).2 ≤ length dirs.
Proof.
  induction dirs as [|d dirs [IHin IHlen]].
  - split; [|done]. by intros p ?%not_elem_of_nil.
  - destruct (decide (statSucceeds fs (testPathOf h cmd d))) as [Hd|Hd].
    + rewrite searchDirs_hit by done. cbn [snd length]. split; [|lia].
      intros p ->%list_elem_of_singleton. exists d. split; [left | done].
    + rewrite searchDirs_miss by done. cbn [snd length]. split; [|lia].
      intros p [->|Hp]%elem_of_cons.
      * exists d. split; [left | done].
      * destruct (IHin p Hp) as (dir & ? & ?). exists dir. split; [by right | done].
Qed.
End search_log.

Lemma HasPrefix_empty (s : string) : HasPrefix s "" = true.
Proof. reflexivity. Qed.

(** Every path seen from the host lies below the chroot directory. *)
Lemma hostPath_prefix (h : hostexec) (p : string) :
  HasPrefix (hostPath h p) (chrootDir h) = true.
Proof.
  unfold hostPath. case_bool_decide as Hc.
  - apply HasPrefix_app.
  - rewrite Hc. apply HasPrefix_empty.
Qed.

Lemma hasSeparator_candidate (dir cmd : string) : hasSeparator (dir +:+ "/" +:+ cmd).
Proof. apply hasSeparator_app. Qed.

Lemma not_hasSeparator_nonempty (s : string) : hasSeparator s → s ≠ "".
Proof. intros Hs ->. by apply not_elem_of_nil in Hs. Qed.

(** What [wrapEnv] can return: its input, the env rewriting, or a
    candidate path the filesystem holds. *)
Lemma wrapEnv_cases (h : hostexec) (cmd : string) (args : list string)
    (fs : Filesystem) :
  (wrapEnv h cmd args fs).1 = (cmd, args)
  ∨ (¬ hasSeparator cmd
     ∧ (wrapEnv h cmd args fs).1 = ("/usr/bin/env", ["-i"; pathAssignment; cmd] ++ args))
  ∨ (¬ hasSeparator cmd
     ∧ ∃ dir, dir ∈ defaultSearchPath
         ∧ (wrapEnv h cmd args fs).1 = (dir +:+ "/" +:+ cmd, args)
         ∧ statSucceeds fs (testPathOf h cmd dir)).
Proof.
  destruct (ContainsAny cmd "/") eqn:Hc.
  - left. by rewrite wrapEnv_explicit.
  - assert (¬ hasSeparator cmd) as Hsep.
    { intros Hs%ContainsAny_hasSeparator. congruence. }
    destruct (IsNotExist (stat_err (fs (envPath h)))) eqn:Hne.
    + rewrite wrapEnv_fallback by done. cbn [fst].
      destruct (searchDirs h cmd defaultSearchPath fs).1 as [p|] eqn:Hp.
      * apply searchDirs_some in Hp as (dir & Hin & -> & Hok).
        right. right. split; [done|]. by exists dir.
      * by left.
    + right. left. split; [done|]. by rewrite wrapEnv_helper.
Qed.

(** [wrapEnv] and the search loop consult the wrapper for its chroot
    directory only. *)
Lemma searchDirs_chrootDir (h h' : hostexec) (cmd : string) (dirs : list string)
    (fs : Filesystem) :
  chrootDir h = chrootDir h' →
  searchDirs h cmd dirs fs = searchDirs h' cmd dirs fs.
Proof.
  intros Heq. induction dirs as [|d dirs IH]; [done|].
  cbn [searchDirs]. rewrite !stat_bind_run, <- Heq.
  destruct (stat_err (fs _)); [by rewrite IH | done].
Qed.

Lemma wrapEnv_chrootDir (h h' : hostexec) (cmd : string) (args : list string)
    (fs : Filesystem) :
  chrootDir h = chrootDir h' →
  wrapEnv h cmd args fs = wrapEnv h' cmd args fs.
Proof.
  intros Heq. unfold wrapEnv, envPath. rewrite <- Heq.
  destruct (ContainsAny cmd "/"); [done|].
  rewrite !stat_bind_run. destruct (IsNotExist _); [|done].
  by rewrite !mbind_run, (searchDirs_chrootDir h h').
Qed.

(** The arguments [wrapEnv] returns, as new elements before its input. *)
Lemma wrapEnv_args_app (h : hostexec) (cmd : string) (args : list string)
    (fs : Filesystem) :
  ∃ pre, (wrapEnv h cmd args fs).1.2 = pre ++ args.
Proof. apply wrapEnv_args_suffix. Qed.

(** ** The pipeline under each configuration *)



(** X2. Without a chroot directory, [wrap] is the env stage applied to
    the resolved name: nothing of the chroot wrapping is added. *)
Theorem wrap_chroot_disabled (h : hostexec) (cmd : string) (args : list string)
    (fs : Filesystem) :
  chrootDir h = "" →
  wrap h cmd args fs = wrapEnv h (resolveCmd h cmd args).1 args fs.
Proof.
  intros HR. rewrite wrap_run, resolveCmd_args. unfold wrapChroot.
  rewrite bool_decide_true by done.
  by destruct (wrapEnv h (resolveCmd h cmd args).1 args fs) as [[c a] t].
Qed.

Lemma wrap_chroot_disabled_witness :
  wrap (mkHostexec sampleMap "") "mount" ["-a"] fsHostNoEnv
  = wrapEnv (mkHostexec sampleMap "") "mount" ["-a"] fsHostNoEnv.
Proof.
  apply (wrap_chroot_disabled (mkHostexec sampleMap "") "mount" ["-a"] fsHostNoEnv).
  reflexivity.
Defined.

(** X3. First hit wins. When the resolved name has no separator and the
    env helper is not found, and the search path is [earlier], then
    [dir], then [later], with the name found in [dir] and in none of
    [earlier], [wrap] runs [dir/name] (behind the chroot wrapping, if
    any). It stats the helper, then the candidates of [earlier] and
    [dir] in order, and never those of [later]. *)
Theorem wrap_first_hit_wins (h : hostexec) (cmd : string) (args : list string)
    (fs : Filesystem) (earlier : list string) (dir : string) (later : list string) :
  ¬ hasSeparator (resolveCmd h cmd args).1 →
  fs (envPath h) = StatErr ENOENT →
  defaultSearchPath = earlier ++ dir :: later →
  Forall (λ d, ¬ statSucceeds fs (testPathOf h (resolveCmd h cmd args).1 d)) earlier →
  statSucceeds fs (testPathOf h (resolveCmd h cmd args).1 dir) →
  wrap h cmd args fs
  = (wrapChroot h (dir +:+ "/" +:+ (resolveCmd h cmd args).1) args,
     envPath h :: (testPathOf h (resolveCmd h cmd args).1 <$> earlier ++ [dir])).
Proof.
  intros Hsep%ContainsAny_no_separator Henv Hpath Hearlier Hdir.
  rewrite wrap_run, resolveCmd_args.
  rewrite wrapEnv_fallback; [| done | by rewrite Henv].
  by rewrite Hpath, searchDirs_first_log.
Qed.

Lemma wrap_first_hit_wins_witness :
  wrap (mkHostexec sampleMap "") "mount" ["-a"] fsHostNoEnv
  = (("/sbin/mount", ["-a"]),
     ["/usr/bin/env"; "/usr/local/sbin/mount"; "/usr/local/bin/mount";
      "/usr/sbin/mount"; "/usr/bin/mount"; "/sbin/mount"]).
Proof.
  apply (wrap_first_hit_wins (mkHostexec sampleMap "") "mount" ["-a"] fsHostNoEnv
           ["/usr/local/sbin"; "/usr/local/bin"; "/usr/sbin"; "/usr/bin"]
           "/sbin" ["/bin"]);
    [compute_done | reflexivity | reflexivity | | reflexivity].
  repeat constructor; compute_done.
Defined.

(** X4. When the resolved name has no separator, the env helper is not
    found and no search-path directory holds the name, [wrap] runs the
    resolved name as it is (behind the chroot wrapping, if any), having
    stat-ed the helper and then every candidate, in search-path order. *)
Theorem wrap_not_found_log (h : hostexec) (cmd : string) (args : list string)
    (fs : Filesystem) :
  ¬ hasSeparator (resolveCmd h cmd args).1 →
  fs (envPath h) = StatErr ENOENT →
  Forall (λ d, ¬ statSucceeds fs (testPathOf h (resolveCmd h cmd args).1 d))
         defaultSearchPath →
  wrap h cmd args fs
  = (wrapChroot h (resolveCmd h cmd args).1 args,
     envPath h :: (testPathOf h (resolveCmd h cmd args).1 <$> defaultSearchPath)).
Proof.
  intros Hsep%ContainsAny_no_separator Henv Hdirs.
  rewrite wrap_run, resolveCmd_args.
  rewrite wrapEnv_fallback; [| done | by rewrite Henv].
  by rewrite searchDirs_none_log.
Qed.

Lemma wrap_not_found_log_witness :
  wrap (mkHostexec sampleMap "/host") "mkfs" ["-t"; "ext4"] fsBare
  = (("/usr/sbin/chroot", ["/host"; "mke2fs"; "-t"; "ext4"]),
     ["/host/usr/bin/env"; "/host/usr/local/sbin/mke2fs"; "/host/usr/local/bin/mke2fs";
      "/host/usr/sbin/mke2fs"; "/host/usr/bin/mke2fs"; "/host/sbin/mke2fs";
      "/host/bin/mke2fs"]).
Proof.
  apply (wrap_not_found_log (mkHostexec sampleMap "/host") "mkfs" ["-t"; "ext4"] fsBare);
    [compute_done | reflexivity |].
  repeat constructor; compute_done.
Defined.

(** A path seen from the host is the chroot directory followed by the
    path; with no chroot directory, the path itself. *)
Lemma hostPath_app (h : hostexec) (p : string) : hostPath h p = chrootDir h +:+ p.
Proof. unfold hostPath. case_bool_decide as Hc; [done|]. by rewrite Hc. Qed.

(** X5. Whatever its input, [wrap] stats at most seven paths. Each of
    them is the chroot directory followed by [/usr/bin/env], or by
    [dir/name] for a search-path directory [dir] and the resolved name
    (with an empty chroot directory: those paths themselves); so each
    has the chroot directory as a prefix. *)
Theorem wrap_probes_confined (h : hostexec) (cmd : string) (args : list string)
    (fs : Filesystem) :
  (∀ p, p ∈ probes (wrap h cmd args) fs →
     p = chrootDir h +:+ "/usr/bin/env"
     ∨ ∃ dir, dir ∈ defaultSearchPath
         ∧ p = chrootDir h +:+ dir +:+ "/" +:+ (resolveCmd h cmd args).1)
  ∧ (∀ p, p ∈ probes (wrap h cmd args) fs → HasPrefix p (chrootDir h) = true)
  ∧ length (probes (wrap h cmd args) fs) ≤ 7.
Proof.
  assert (∀ p, p ∈ probes (wrap h cmd args) fs →
     p = chrootDir h +:+ "/usr/bin/env"
     ∨ ∃ dir, dir ∈ defaultSearchPath
         ∧ p = chrootDir h +:+ dir +:+ "/" +:+ (resolveCmd h cmd args).1) as Hshape.
  { unfold probes. rewrite wrap_run. cbn [snd].
    set (c := (resolveCmd h cmd args).1). set (a := (resolveCmd h cmd args).2).
    destruct (ContainsAny c "/") eqn:Hc.
    { rewrite wrapEnv_explicit by done. by intros p ?%not_elem_of_nil. }
    destruct (IsNotExist (stat_err (fs (envPath h)))) eqn:Hne.
    - rewrite wrapEnv_fallback by done. cbn [snd].
      destruct (searchDirs_probes_bound h c fs defaultSearchPath) as [Hin _].
      intros p [->|Hp]%elem_of_cons.
      + left. by rewrite envPath_hostPath, hostPath_app.
      + right. destruct (Hin p Hp) as (dir & Hdir & ->). exists dir.
        split; [done|]. unfold testPathOf. by rewrite hostPath_app.
    - rewrite wrapEnv_helper by done. cbn [snd].
      intros p ->%list_elem_of_singleton.
      left. by rewrite envPath_hostPath, hostPath_app. }
  split_and!; [exact Hshape | |].
  - intros p [->|(dir & _ & ->)]%Hshape; apply HasPrefix_app.
  - unfold probes. rewrite wrap_run. cbn [snd].
    set (c := (resolveCmd h cmd args).1). set (a := (resolveCmd h cmd args).2).
    destruct (ContainsAny c "/") eqn:Hc.
    { rewrite wrapEnv_explicit by done. cbn [snd length]. lia. }
    destruct (IsNotExist (stat_err (fs (envPath h)))) eqn:Hne.
    + rewrite wrapEnv_fallback by done. cbn [snd length].
      destruct (searchDirs_probes_bound h c fs defaultSearchPath) as [_ Hlen].
      change (length defaultSearchPath) with 6 in Hlen. lia.
    + rewrite wrapEnv_helper by done. cbn [snd length]. lia.
Qed.

(** ** What the env stage returns *)

(** X6. A program that [wrapEnv] puts in the place of the name, other
    than [/usr/bin/env], is a search-path directory followed by the name,
    and the stat of that path, taken below the chroot directory if there
    is one, succeeded; the arguments are then returned unchanged. *)
Theorem wrapEnv_substitute_exists (h : hostexec) (cmd : string)
    (args : list string) (fs : Filesystem) :
  (result (wrapEnv h cmd args) fs).1 ≠ cmd →
  (result (wrapEnv h cmd args) fs).1 ≠ "/usr/bin/env" →
  ∃ dir, dir ∈ defaultSearchPath
    ∧ result (wrapEnv h cmd args) fs = (dir +:+ "/" +:+ cmd, args)
    ∧ statSucceeds fs (hostPath h (dir +:+ "/" +:+ cmd)).
Proof.
  unfold result. intros Hcmd Henv.
  destruct (wrapEnv_cases h cmd args fs) as [Hid|[[_ Hhelper]|[_ Hfound]]].
  - by rewrite Hid in Hcmd.
  - by rewrite Hhelper in Henv.
  - destruct Hfound as (dir & Hin & Hres & Hok). by exists dir.
Qed.

Lemma wrapEnv_substitute_exists_witness :
  ∃ dir, dir ∈ defaultSearchPath
    ∧ result (wrapEnv (mkHostexec ∅ "/host") "foo" []) fsTwoCopies
      = (dir +:+ "/" +:+ "foo", [])
    ∧ statSucceeds fsTwoCopies (hostPath (mkHostexec ∅ "/host") (dir +:+ "/" +:+ "foo")).
Proof.
  apply (wrapEnv_substitute_exists (mkHostexec ∅ "/host") "foo" [] fsTwoCopies);
    vm_compute; discriminate.
Defined.

(** X7. The env stage is idempotent: run again, on the same filesystem,
    on the program and arguments it returned, it returns them unchanged
    (no second [env] layer, no second search result). *)
Theorem wrapEnv_idempotent (h : hostexec) (cmd : string) (args : list string)
    (fs : Filesystem) :
  result (wrapEnv h (result (wrapEnv h cmd args) fs).1
                    (result (wrapEnv h cmd args) fs).2) fs
  = result (wrapEnv h cmd args) fs.
Proof.
  unfold result.
  destruct (wrapEnv_cases h cmd args fs) as [Hid|[[_ Hhelper]|[_ Hfound]]].
  - rewrite Hid. cbn [fst snd]. exact Hid.
  - rewrite Hhelper. cbn [fst snd]. rewrite wrapEnv_explicit; [done|].
    by apply ContainsAny_hasSeparator; compute_done.
  - destruct Hfound as (dir & _ & Hres & _). rewrite Hres. cbn [fst snd].
    rewrite wrapEnv_explicit; [done|].
    apply ContainsAny_hasSeparator, hasSeparator_candidate.
Qed.

(** X8. The command map is applied once: [wrap] treats the value found
    for a name as a wrapper with an empty map treats that value given as
    the name, so a value that is itself a key is not looked up again. *)
Theorem wrap_remaps_once (h : hostexec) (cmd : string) (args : list string)
    (fs : Filesystem) :
  wrap h cmd args fs
  = wrap (mkHostexec ∅ (chrootDir h)) (resolveCmd h cmd args).1 args fs.
Proof.
  rewrite !wrap_run, resolveCmd_args.
  rewrite (resolveCmd_unmapped (mkHostexec ∅ (chrootDir h))) by by left.
  cbn [fst snd].
  by rewrite (wrapEnv_chrootDir h (mkHostexec ∅ (chrootDir h))).
Qed.

(** X9. For a non-empty name, the program [wrap] returns is never the
    empty string. *)
Theorem wrap_program_nonempty (h : hostexec) (cmd : string) (args : list string)
    (fs : Filesystem) :
  cmd ≠ "" →
  (result (wrap h cmd args) fs).1 ≠ "".
Proof.
  intros Hcmd. unfold result. rewrite wrap_run. cbn [fst].
  assert ((resolveCmd h cmd args).1 ≠ "") as Hres.
  { unfold resolveCmd. destruct (commandMap h !! cmd) as [c|]; [|done].
    by case_bool_decide. }
  set (c := (resolveCmd h cmd args).1) in *. set (a := (resolveCmd h cmd args).2).
  assert ((wrapEnv h c a fs).1.1 ≠ "") as Henv.
  { destruct (wrapEnv_cases h c a fs) as [Hid|[[_ Hhelper]|[_ Hfound]]].
    - by rewrite Hid.
    - by rewrite Hhelper.
    - destruct Hfound as (dir & _ & -> & _). cbn [fst].
      apply not_hasSeparator_nonempty, hasSeparator_candidate. }
  unfold wrapChroot. by case_bool_decide.
Qed.

Lemma wrap_program_nonempty_witness :
  (result (wrap (mkHostexec sampleMap "") "blank" []) fsHostNoEnv).1 ≠ "".
Proof.
  apply (wrap_program_nonempty (mkHostexec sampleMap "") "blank" [] fsHostNoEnv).
  discriminate.
Defined.

(** X12. A resolved name without separator whose helper check ends in
    anything but a not-exist error is run through [/usr/bin/env] under the
    resolved name (the mapped one, for a remapped name), behind the
    chroot wrapping if any; the helper's path is the only one stat-ed. *)
Theorem wrap_resolved_through_env (h : hostexec) (cmd : string)
    (args : list string) (fs : Filesystem) :
  ¬ hasSeparator (resolveCmd h cmd args).1 →
  stat_err (fs (envPath h)) ≠ Some ENOENT →
  wrap h cmd args fs
  = (wrapChroot h "/usr/bin/env"
       (["-i"; pathAssignment; (resolveCmd h cmd args).1] ++ args),
     [envPath h]).
Proof.
  intros Hsep%ContainsAny_no_separator Henv.
  rewrite wrap_run, resolveCmd_args. rewrite wrapEnv_helper; [done | done |].
  destruct (fs (envPath h)) as [fi|[]]; by try done.
Qed.

Lemma wrap_resolved_through_env_witness :
  wrap (mkHostexec sampleMap "/host") "mkfs" ["-t"; "ext4"] fsDenied
  = (("/usr/sbin/chroot",
      ["/host"; "/usr/bin/env"; "-i"; pathAssignment; "mke2fs"; "-t"; "ext4"]),
     ["/host/usr/bin/env"]).
Proof.
  apply (wrap_resolved_through_env (mkHostexec sampleMap "/host") "mkfs"
           ["-t"; "ext4"] fsDenied);
    [compute_done | vm_compute; discriminate].
Defined.

(** ** Construction and the entry points *)

(** X10. [New] has two outcomes. Either the chroot directory is empty or
    names an existing directory, and [New] returns no error and a wrapper
    holding exactly the map and the directory given; or it returns the
    error and no wrapper. The chroot directory, when not empty, is the
    one path it stats. *)
Theorem New_outcomes (cmdMap : gmap string string) (chrootDir : string)
    (fs : Filesystem) :
  ((chrootDir = "" ∨ isExistingDir fs chrootDir = true)
   ∧ result (New cmdMap chrootDir) fs = (Some (mkHostexec cmdMap chrootDir), None)
   ∨ (chrootDir ≠ "" ∧ isExistingDir fs chrootDir = false)
     ∧ result (New cmdMap chrootDir) fs = (None, Some errChrootDir))
  ∧ probes (New cmdMap chrootDir) fs
    = (if bool_decide (chrootDir = "") then [] else [chrootDir]).
Proof.
  unfold result, probes, New, isExistingDir.
  destruct (decide (chrootDir = "")) as [->|Hne].
  - split; [|done]. left. split; [by left | done].
  - rewrite bool_decide_true, (bool_decide_false (chrootDir = "")) by done.
    rewrite stat_bind_run. destruct (fs chrootDir) as [[[]]|e]; cbn.
    + split; [|done]. left. split; [by right | done].
    + split; [|done]. by right.
    + split; [|done]. by right.
Qed.

(** X11. With a chroot directory configured, both entry points hand the
    executor the program [/usr/sbin/chroot] with arguments that start
    with the chroot directory and end with the caller's arguments;
    [CommandContext] passes its context on unchanged, and neither stats
    anything [wrap] does not. *)
Theorem Command_chrooted {Ctx Cmd : Type} (E : Executor Ctx Cmd) (h : hostexec)
    (ctx : Ctx) (cmd : string) (args : list string) (fs : Filesystem) :
  chrootDir h ≠ "" →
  ∃ c pre,
    Command E h cmd args fs
    = (exec_Command E "/usr/sbin/chroot" (chrootDir h :: c :: pre ++ args),
       probes (wrap h cmd args) fs)
    ∧ CommandContext E h ctx cmd args fs
      = (exec_CommandContext E ctx "/usr/sbin/chroot" (chrootDir h :: c :: pre ++ args),
         probes (wrap h cmd args) fs).
Proof.
  intros HR. unfold Command, CommandContext, probes. rewrite !mbind_run.
  rewrite wrap_run. cbn [fst snd]. rewrite wrapChroot_enabled by done.
  destruct (wrapEnv_args_app h (resolveCmd h cmd args).1 (resolveCmd h cmd args).2 fs)
    as [pre Hpre].
  rewrite Hpre, resolveCmd_args. cbn. rewrite app_nil_r.
  by eexists _, pre.
Qed.

Lemma Command_chrooted_witness :
  ∃ c pre,
    Command recorder (mkHostexec sampleMap "/host") "iscsiadm" ["-m"; "node"] fsBare
    = ((None, "/usr/sbin/chroot", "/host" :: c :: pre ++ ["-m"; "node"]),
       probes (wrap (mkHostexec sampleMap "/host") "iscsiadm" ["-m"; "node"]) fsBare)
    ∧ CommandContext recorder (mkHostexec sampleMap "/host") "ctx" "iscsiadm"
        ["-m"; "node"] fsBare
      = ((Some "ctx", "/usr/sbin/chroot", "/host" :: c :: pre ++ ["-m"; "node"]),
         probes (wrap (mkHostexec sampleMap "/host") "iscsiadm" ["-m"; "node"]) fsBare).
Proof.
  apply (Command_chrooted recorder (mkHostexec sampleMap "/host") "ctx" "iscsiadm"
           ["-m"; "node"] fsBare).
  discriminate.
Defined.
